(** * The NEAR wallet service layer: fungible tokens and two-factor control

  A shallow embedding of [packages/frontend/src/services/FungibleTokens.js]
  and [packages/frontend/src/utils/twoFactor.js].

  Both files are orchestration code over external collaborators (the
  near-api-js account objects, the wallet, the helper service, the redux
  store).  Every call that leaves these two files is an explicit [Call]
  answered by an environment; a computation returns its outcome (a value or
  a thrown error), the store it leaves behind and the list of external
  calls it made, each with the answer it got.

  Amounts (yoctoNEAR, gas units) are decimal strings or bn.js numbers in the
  source.  Both are modelled by the integer they denote, so [new BN(x)] and
  [.toString()] are the identity on [Z]. *)

From Stdlib Require Import ZArith List String Ascii Bool Lia DecimalString.
Import ListNotations.
Local Open Scope string_scope.
Local Open Scope list_scope.
Local Open Scope Z_scope.

(** ** JavaScript values *)

Module Js.

(** JSON-shaped values, plus [undefined]. An object is the list of its own
    properties; lookup takes the first binding of a key. *)
#[warnings="-register-all"]
Inductive Value : Type :=
| Undefined
| Null
| Bool (b : bool)
| Num (n : Z)
| Str (s : string)
| Arr (items : list Value)
| Obj (fields : list (string * Value)).

(** ToBoolean *)
Definition truthy (v : Value) : bool :=
  match v with
  | Undefined | Null => false
  | Bool b => b
  | Num n => negb (n =? 0)
  | Str s => negb (s =? "")%string
  | Arr _ | Obj _ => true
  end.

Fixpoint assoc (k : string) (fields : list (string * Value)) : Value :=
  match fields with
  | [] => Undefined
  | (k', v) :: rest => if (k =? k')%string then v else assoc k rest
  end.

(** [v.k] for a property name [k] that no prototype defines ([total],
    [code_hash]): only an object's own binding can answer. *)
Definition member (v : Value) (k : string) : Value :=
  match v with
  | Obj fields => assoc k fields
  | _ => Undefined
  end.

(** [v?.k]: short-circuits to [undefined] on [null] and [undefined]. *)
Definition opt_member (v : Value) (k : string) : Value :=
  match v with
  | Undefined | Null => Undefined
  | _ => member v k
  end.

(** [v === undefined] *)
Definition is_undefined (v : Value) : bool :=
  match v with Undefined => true | _ => false end.

(** [v === false] *)
Definition is_false (v : Value) : bool :=
  match v with Bool false => true | _ => false end.

(** [s.includes(needle)] *)
Fixpoint includes (s needle : string) : bool :=
  if String.prefix needle s then true
  else match s with
       | EmptyString => false
       | String _ rest => includes rest needle
       end.

(** [hashes.includes(v)] for an array of strings: SameValueZero only
    relates a string to an equal string. *)
Definition array_includes (hashes : list string) (v : Value) : bool :=
  match v with
  | Str h => existsb (String.eqb h) hashes
  | _ => false
  end.

(** Thrown values. [WalletError] carries its [type] next to the message. *)
Inductive ErrorClass : Type :=
| PlainError
| WalletError (type : string).

Record Error : Type := mkError { class : ErrorClass; message : string }.

(** A pending or settled promise is an object: ToBoolean answers [true]
    whatever it settles to. *)
Inductive Promise (A : Type) : Type :=
| Settles (o : A + Error).
Arguments Settles {A} o.

Definition promise_truthy {A : Type} (p : Promise A) : bool := true.

End Js.

Import Js.

(** ** Object literals *)

Module JsObject.

(** What reading or destructuring a property of [null] or [undefined]
    throws.  The message is the engine's; nothing below looks at it. *)
Definition typeError : Error := mkError PlainError "TypeError".

(** [a || b] *)
Definition or_else (a b : Value) : Value := if truthy a then a else b.

(** The property key of array index [n]. *)
Definition index_key (n : nat) : string :=
  NilEmpty.string_of_uint (Nat.to_uint n).

Fixpoint indexed (from : nat) (items : list Value) : list (string * Value) :=
  match items with
  | [] => []
  | v :: rest => (index_key from, v) :: indexed (S from) rest
  end.

Fixpoint characters (s : string) : list Value :=
  match s with
  | EmptyString => []
  | String c rest => Str (String c EmptyString) :: characters rest
  end.

(** The own enumerable properties that [...v] copies into an object
    literal: none for [null], [undefined], booleans and numbers. *)
Definition own_properties (v : Value) : list (string * Value) :=
  match v with
  | Obj fields => fields
  | Arr items => indexed 0 items
  | Str s => indexed 0 (characters s)
  | _ => []
  end.

(** [k: v] written in an object literal after a spread: the binding that
    lookup sees is replaced, a new key is added at the end. *)
Fixpoint define (k : string) (v : Value) (fields : list (string * Value))
    : list (string * Value) :=
  match fields with
  | [] => [(k, v)]
  | (k', v') :: rest =>
      if (k =? k')%string then (k, v) :: rest
      else (k', v') :: define k v rest
  end.

End JsObject.

Import JsObject.

(** ** Transactions *)

(** [functionCall(methodName, args, gas, deposit)]; [deposit] is [None] when
  the argument is omitted or [null]. *)
Record Action : Type := functionCall {
  methodName : string;
  args : Value;
  gas : Z;
  deposit : option Z
}.

Record Transaction : Type := mkTransaction {
  receiverId : string;
  actions : list Action
}.

(** ** Configuration (the constants imported from [../config]) *)

Record Config : Type := mkConfig {
  NEAR_TOKEN_ID : string;
  TOKEN_TRANSFER_DEPOSIT : Z;
  FT_TRANSFER_GAS : Z;
  FT_STORAGE_DEPOSIT_GAS : Z;
  FT_MINIMUM_STORAGE_BALANCE : Z;
  FT_MINIMUM_STORAGE_BALANCE_LARGE : Z;
  FT_REGISTRATION_DEPOSIT : Z;
  FT_REGISTRATION_DEPOSIT_GAS : Z;
  SEND_NEAR_GAS : Z;
  MULTISIG_CONTRACT_HASHES : list string
}.

(** ** External calls *)

(** An account object is identified by the account id it was made for. *)
Definition Account := string.

Inductive Call : Type :=
| WalletGetAccount (accountId : string)
| ViewFunction (account : Account) (contractId method : string) (args : Value)
| SendMoney (account : Account) (receiver : string) (amount : Z)
| SignAndSendTransaction (account : Account) (tx : Transaction)
| GetTotalGasFee (gasUnits : Z)
| AccountState (account : Account)
| WalletIsLedgerEnabled
| SetRequest (data : Value)
| WalletPostSignedJson (path : string) (body : Value)
| SuperGet2faMethod
| Fetch (path : string)
| Disable (contractBytes cleanupBytes : Value)
| SuperDeployMultisig (contractBytes : Value)
| DispatchRefreshAccount.

Inductive Outcome (A : Type) : Type :=
| Ok (a : A)
| Throw (e : Error).
Arguments Ok {A} a.
Arguments Throw {A} e.

(** One line of the interaction log: the call and what came back. *)
Definition Entry : Type := Call * Outcome Value.

(** The world outside: each call is answered from the current world and
  moves it on. *)
Definition Env (World : Type) : Type :=
  Call -> World -> Outcome Value * World.

(** What the two classes can touch: the world, the [has2fa] field of the
  [TwoFactor] instance and the pending multisig request kept in
  [localStorage]. *)
Record Store (World : Type) : Type := mkStore {
  world : World;
  has2fa : bool;
  request : Value
}.
Arguments mkStore {World} world has2fa request.
Arguments world {World} s.
Arguments has2fa {World} s.
Arguments request {World} s.

(** ** Asynchronous computations *)

Section Async.

Context {World : Type}.

Definition Async (A : Type) : Type :=
  Store World -> Outcome A * Store World * list Entry.

Definition ret {A} (a : A) : Async A := fun s => (Ok a, s, []).

Definition throw {A} (e : Error) : Async A := fun s => (Throw e, s, []).

(** [await m] followed by the rest of the function body. *)
Definition bind {A B} (m : Async A) (k : A -> Async B) : Async B :=
  fun s =>
    match m s with
    | (Ok a, s1, t1) =>
        match k a s1 with
        | (r, s2, t2) => (r, s2, t1 ++ t2)
        end
    | (Throw e, s1, t1) => (Throw e, s1, t1)
    end.

(** [try { m } catch (e) { handler }]: what [m] did before it threw stays
    done. *)
Definition try_catch {A} (m : Async A) (handler : Error -> Async A) : Async A :=
  fun s =>
    match m s with
    | (Ok a, s1, t1) => (Ok a, s1, t1)
    | (Throw e, s1, t1) =>
        match handler e s1 with
        | (r, s2, t2) => (r, s2, t1 ++ t2)
        end
    end.

(** Calling an async function without [await]: the call is started and a
    promise comes back at once; whether it fulfils or rejects is not seen
    by the caller. *)
Definition call_async {A} (m : Async A) : Async (Promise A) :=
  fun s =>
    match m s with
    | (Ok a, s1, t1) => (Ok (Settles (inl a)), s1, t1)
    | (Throw e, s1, t1) => (Ok (Settles (inr e)), s1, t1)
    end.

Variable env : Env World.

Definition external (c : Call) : Async Value :=
  fun s =>
    match env c (world s) with
    | (r, w) => (r, mkStore w (has2fa s) (request s), [(c, r)])
    end.

Definition set_has2fa (b : bool) : Async unit :=
  fun s => (Ok tt, mkStore (world s) b (request s), []).

End Async.

Declare Scope async_scope.
Delimit Scope async_scope with async.
Notation "x <- m ;; k" := (bind m (fun x => k))
(at level 61, m at next level, right associativity) : async_scope.
Notation "m ;;; k" := (bind m (fun _ => k))
(at level 61, right associativity) : async_scope.
Local Open Scope async_scope.

(** The three components of a run. *)
Definition result {World A} (r : Outcome A * Store World * list Entry) : Outcome A :=
  fst (fst r).

Definition after {World A} (r : Outcome A * Store World * list Entry) : Store World :=
  snd (fst r).

Definition log {World A} (r : Outcome A * Store World * list Entry) : list Entry :=
  snd r.

(** The transactions handed to [signAndSendTransaction], in order, each with
    what the submission came back with. *)
Fixpoint submissions (entries : list Entry) : list (Transaction * Outcome Value) :=
  match entries with
  | [] => []
  | (SignAndSendTransaction _ tx, answer) :: rest => (tx, answer) :: submissions rest
  | _ :: rest => submissions rest
  end.

(** ** FungibleTokens.js *)

Module FungibleTokens.

Section Service.

Context {World : Type}.
Variable cfg : Config.
(** [nearApiJs.utils.format.parseNearAmount]; [None] is [null]. *)
Variable parseNearAmount : string -> option Z.
Variable env : Env World.

(** [static viewFunctionAccount = wallet.getAccountBasic('dontcare')] *)
Definition viewFunctionAccount : Account := "dontcare".

(** [{ account_id: accountId }] *)
Definition account_id_args (accountId : string) : Value :=
  Obj [("account_id", Str accountId)].

(** An optional string argument; [None] is [undefined]. *)
Definition given (a : option string) : bool :=
  match a with
  | Some s => truthy (Str s)
  | None => false
  end.

(** [new BN(v)] for a value that encodes an amount. *)
Definition BN (v : Value) : Z :=
  match v with
  | Num n => n
  | _ => 0
  end.

(** [viewFunctionAccount.viewFunction(contractName, 'check_registration',
    { account_id: accountId })] *)
Definition registrationQuery (contractName accountId : string) : Call :=
  ViewFunction viewFunctionAccount contractName
    "check_registration" (account_id_args accountId).

(** [viewFunctionAccount.viewFunction(contractName, 'storage_balance_of',
    { account_id: accountId })] *)
Definition storageQuery (contractName accountId : string) : Call :=
  ViewFunction viewFunctionAccount contractName
    "storage_balance_of" (account_id_args accountId).

Definition checkRegistration (contractName accountId : string) : Async Value :=
  try_catch
    (external env (registrationQuery contractName accountId))
    (fun _ => ret Null).

Definition getStorageBalance (contractName accountId : string) : Async Value :=
  external env (storageQuery contractName accountId).

Definition isAccountUnregistered (contractName accountId : string) : Async bool :=
  registered <- checkRegistration contractName accountId ;;
  ret (is_false registered).

Definition isStorageDepositRequired (accountId contractName : string) : Async bool :=
  try_catch
    (storageBalance <- getStorageBalance contractName accountId ;;
     ret (is_undefined (opt_member storageBalance "total")))
    (fun _ => ret false).

(** [getTotalGasFee] of [../utils/gasPrice] *)
Definition getTotalGasFee (gasUnits : Z) : Async Value :=
  external env (GetTotalGasFee gasUnits).

Definition getEstimatedTotalFees (accountId contractName : option string) : Async Value :=
  let otherwise :=
    getTotalGasFee (if given contractName then FT_TRANSFER_GAS cfg
                    else SEND_NEAR_GAS cfg) in
  match contractName, accountId with
  | Some contract, Some account =>
      if given contractName && given accountId then
        isRegistrationRequired <- isAccountUnregistered contract account ;;
        isStorageRequired <- isStorageDepositRequired account contract ;;
        let transferGasFee := FT_TRANSFER_GAS cfg in
        if isRegistrationRequired : bool then
          gasFeesWithStorage <-
            getTotalGasFee (transferGasFee + FT_REGISTRATION_DEPOSIT_GAS cfg) ;;
          ret (Num (BN gasFeesWithStorage + FT_REGISTRATION_DEPOSIT cfg))
        else if isStorageRequired : bool then
          gasFeesWithStorage <-
            getTotalGasFee (transferGasFee + FT_STORAGE_DEPOSIT_GAS cfg) ;;
          ret (Num (BN gasFeesWithStorage + FT_MINIMUM_STORAGE_BALANCE cfg))
        else otherwise
      else otherwise
  | _, _ => otherwise
  end.

(** The transaction [transferStorageDeposit] submits. *)
Definition storageDepositTransaction (contractName receiver : string)
    (storageDepositAmount : Z) : Transaction :=
  mkTransaction contractName
    [functionCall "storage_deposit"
       (Obj [("account_id", Str receiver); ("registration_only", Bool true)])
       (FT_STORAGE_DEPOSIT_GAS cfg)
       (Some storageDepositAmount)].

Definition transferStorageDeposit (account : Account) (contractName receiver : string)
    (storageDepositAmount : Z) : Async Value :=
  external env (SignAndSendTransaction account
    (storageDepositTransaction contractName receiver storageDepositAmount)).

Definition register_account (receiver : string) : Action :=
  functionCall "register_account" (account_id_args receiver)
    (FT_REGISTRATION_DEPOSIT_GAS cfg) None.

Definition ft_transfer (amount : Z) (memo : Value) (receiver : string) : Action :=
  functionCall "ft_transfer"
    (Obj [("amount", Num amount); ("memo", memo); ("receiver_id", Str receiver)])
    (FT_TRANSFER_GAS cfg)
    (Some (TOKEN_TRANSFER_DEPOSIT cfg)).

(** The transaction [transfer] ends with. *)
Definition transferTransaction (contractName : string) (isRegistrationRequired : bool)
    (amount : Z) (memo : Value) (receiver : string) : Transaction :=
  mkTransaction contractName
    ((if isRegistrationRequired then [register_account receiver] else [])
     ++ [ft_transfer amount memo receiver]).

Definition transfer (accountId : string) (contractName : option string)
    (amount : Z) (receiver : string) (memo : Value) : Async Value :=
  _ <- external env (WalletGetAccount accountId) ;;
  let account : Account := accountId in
  match contractName with
  | Some contract =>
      if given contractName then
        isStorageTransferRequired <- isStorageDepositRequired receiver contract ;;
        (if isStorageTransferRequired : bool then
           try_catch
             (_ <- transferStorageDeposit account contract receiver
                     (FT_MINIMUM_STORAGE_BALANCE cfg) ;;
              ret tt)
             (fun e =>
                if includes (message e) "attached deposit is less than" then
                  _ <- transferStorageDeposit account contract receiver
                         (FT_MINIMUM_STORAGE_BALANCE_LARGE cfg) ;;
                  ret tt
                else ret tt)
         else ret tt) ;;;
        isRegistrationRequired <- isAccountUnregistered contract receiver ;;
        external env (SignAndSendTransaction account
          (transferTransaction contract isRegistrationRequired amount memo receiver))
      else external env (SendMoney account receiver amount)
  | None => external env (SendMoney account receiver amount)
  end.

Definition near_wrap_action (wrapAmount : Z) (toWNear : bool) : Action :=
  functionCall
    (if toWNear then "near_deposit" else "near_withdraw")
    (if toWNear then Obj [] else Obj [("amount", Num wrapAmount)])
    (FT_STORAGE_DEPOSIT_GAS cfg)
    (Some (if toWNear then wrapAmount else TOKEN_TRANSFER_DEPOSIT cfg)).

Definition wnear_storage_deposit : Action :=
  functionCall "storage_deposit" (Obj [])
    (FT_STORAGE_DEPOSIT_GAS cfg) (parseNearAmount "0.00125").

(** [account.viewFunction(NEAR_TOKEN_ID, 'storage_balance_of',
    { account_id: accountId })] *)
Definition wrapStorageQuery (account : Account) (accountId : string) : Call :=
  ViewFunction account (NEAR_TOKEN_ID cfg)
    "storage_balance_of" (account_id_args accountId).

Definition wrapNear (accountId : string) (wrapAmount : Z) (toWNear : bool) : Async Value :=
  _ <- external env (WalletGetAccount accountId) ;;
  let account : Account := accountId in
  let actions := [near_wrap_action wrapAmount toWNear] in
  storage <- external env (wrapStorageQuery account accountId) ;;
  let actions :=
    if negb (truthy storage) then wnear_storage_deposit :: actions
    else actions in
  external env (SignAndSendTransaction account
    (mkTransaction (NEAR_TOKEN_ID cfg) actions)).

(** [token.contractName || token.onChainFTMetadata?.symbol]; synchronous, it
    returns or throws at once. *)
Definition getUniqueTokenIdentity (token : Value) : Outcome Value :=
  match token with
  | Undefined | Null => Throw typeError
  | _ =>
      Ok (or_else (member token "contractName")
            (opt_member (member token "onChainFTMetadata") "symbol"))
  end.

(** [getEstimatedTotalFees()] is called without an argument: the default
    [{}] leaves both names [undefined]. *)
Definition getEstimatedTotalNearAmount (amount : Z) : Async Value :=
  fees <- getEstimatedTotalFees None None ;;
  ret (Num (amount + BN fees)).

End Service.

End FungibleTokens.

(** ** twoFactor.js *)

Module TwoFactor.

Section Controller.

Context {World : Type}.
Variable cfg : Config.
Variable env : Env World.
(** [this.accountId]: the [TwoFactor] instance is itself the account. *)
Variable this : Account.

(** [this.setRequest(data)] of [Account2FA]: overwrites the request kept in
    [localStorage]. *)
Definition setRequest (data : Value) : Async (World := World) unit :=
  fun s => (Ok tt, mkStore (world s) (has2fa s) data,
            [(SetRequest data, Ok Undefined)]).

Definition has2faEnabled (account : Account) : Async bool :=
  state <- external env (AccountState account) ;;
  if negb (truthy state) then ret false
  else ret (array_includes (MULTISIG_CONTRACT_HASHES cfg)
              (member state "code_hash")).

Definition get2faMethod : Async Value :=
  enabled <- call_async (has2faEnabled this) ;;
  if promise_truthy enabled then external env SuperGet2faMethod
  else ret Null.

Definition ledgerEnabledError : Error :=
  mkError (WalletError "initTwoFactor.ledgerEnabled")
    "Ledger Hardware Wallet is enabled".

Definition noRequest : Value := Obj [("requestId", Num (-1))].

Definition initTwoFactor (accountId method : Value) : Async Value :=
  isLedgerEnabled <- external env WalletIsLedgerEnabled ;;
  if truthy isLedgerEnabled then throw ledgerEnabledError
  else
    setRequest noRequest ;;;
    external env (WalletPostSignedJson "/2fa/init"
                    (Obj [("accountId", accountId); ("method", method)])).

(** [new Uint8Array(await (await fetch(path)).arrayBuffer())] *)
Definition fetchBytes (path : string) : Async Value :=
  external env (Fetch path).

Definition deployMultisig : Async unit :=
  contractBytes <- fetchBytes "/multisig.wasm" ;;
  external env (SuperDeployMultisig contractBytes) ;;;
  set_has2fa true.

Definition waitError : Error :=
  mkError PlainError
    "You must wait 15 minutes between each attempt to disable 2fa. Please try again in 15 minutes. ".

Definition disableMultisig : Async Value :=
  contractBytes <- fetchBytes "/main.wasm" ;;
  stateCleanupContractBytes <- fetchBytes "/state_cleanup.wasm" ;;
  result <-
    try_catch
      (external env (Disable contractBytes stateCleanupContractBytes))
      (fun e =>
         if includes (message e) "too large to be viewed" then throw waitError
         else ret Undefined) ;;
  external env DispatchRefreshAccount ;;;
  set_has2fa false ;;;
  ret result.

(** [this.getRequest()] of [Account2FA]: reads back the request kept in
    [localStorage]. *)
Definition getRequest : Async (World := World) Value :=
  fun s => (Ok (request s), s, []).

(** [this.viewFunction(this.accountId, 'get_request',
    { request_id: requestId })] *)
Definition requestQuery (requestId : Value) : Call :=
  ViewFunction this this "get_request" (Obj [("request_id", requestId)]).

Definition getMultisigRequest : Async Value :=
  stored <- getRequest ;;
  match stored with
  | Undefined | Null => throw typeError
  | _ =>
      let requestId := member stored "requestId" in
      let accountId := member stored "accountId" in
      answer <- external env (requestQuery requestId) ;;
      ret (Obj (define "account_id" accountId
                  (define "request_id" requestId (own_properties answer))))
  end.

End Controller.

End TwoFactor.

(** ** A small world to run the code in

    One token contract that keeps the accounts which paid for storage and the
    accounts which registered, a fixed gas price, a signer that may be a Ledger, an
    account whose code hash is known, and switches that make the storage
    deposit or the disabling of the multisig contract fail. *)

Module Scenario.

Record Chain : Type := mkChain {
  paid : list string;
  registered : list string;
  storageBound : Z;
  depositOutage : option string;
  ledger : bool;
  codeHash : string;
  disableFailure : option string
}.

Definition config : Config :=
  mkConfig "wrap.near" 1
    30000000000000 30000000000000
    1250000000000000000000 12500000000000000000000
    100000000000000000000000 30000000000000
    450000000000
    ["multisig-v1"; "multisig-v2"].

Definition parseNearAmount (s : string) : option Z :=
  if (s =? "0.00125")%string then Some 1250000000000000000000 else None.

(** Yoctonear per unit of gas, the same on every call. *)
Definition gasFee (gasUnits : Z) : Z := 100000000 * gasUnits.

Definition holds (who : string) (accounts : list string) : bool :=
  existsb (String.eqb who) accounts.

Definition subject (signer : Account) (a : Action) : string :=
  match member (args a) "account_id" with
  | Str who => who
  | _ => signer
  end.

Definition pay (who : string) (w : Chain) : Chain :=
  mkChain (who :: paid w) (registered w) (storageBound w) (depositOutage w)
    (ledger w) (codeHash w) (disableFailure w).

Definition register (who : string) (w : Chain) : Chain :=
  mkChain (paid w) (who :: registered w) (storageBound w) (depositOutage w)
    (ledger w) (codeHash w) (disableFailure w).

Definition setCode (hash : string) (w : Chain) : Chain :=
  mkChain (paid w) (registered w) (storageBound w) (depositOutage w)
    (ledger w) hash (disableFailure w).

Definition failure (msg : string) : Error := mkError PlainError msg.

Definition execute (signer : Account) (a : Action) (w : Chain) : Error + Chain :=
  if (methodName a =? "storage_deposit")%string then
    match depositOutage w with
    | Some msg => inl (failure msg)
    | None =>
        match deposit a with
        | Some d =>
            if d <? storageBound w
            then inl (failure "Smart contract panicked: The attached deposit is less than the mimimum storage balance")
            else inr (pay (subject signer a) w)
        | None => inl (failure "Smart contract panicked: Requires attached deposit")
        end
    end
  else if (methodName a =? "register_account")%string then
    inr (register (subject signer a) w)
  else inr w.

Fixpoint executeAll (signer : Account) (todo : list Action) (w : Chain) : Error + Chain :=
  match todo with
  | [] => inr w
  | a :: rest =>
      match execute signer a w with
      | inl e => inl e
      | inr w1 => executeAll signer rest w1
      end
  end.

Definition chain : Env Chain :=
  fun c w =>
    match c with
    | WalletGetAccount _ => (Ok (Obj []), w)
    | ViewFunction _ _ method query =>
        match member query "account_id" with
        | Str who =>
            if (method =? "storage_balance_of")%string then
              ((if holds who (paid w)
                then Ok (Obj [("total", Str "1250000000000000000000")])
                else Ok Null), w)
            else if (method =? "check_registration")%string then
              (Ok (Bool (holds who (registered w))), w)
            else (Throw (failure "MethodNotFound"), w)
        | _ => (Throw (failure "Failed to deserialize input from JSON"), w)
        end
    | SendMoney _ _ _ => (Ok (Obj []), w)
    | SignAndSendTransaction signer tx =>
        match executeAll signer (actions tx) w with
        | inl e => (Throw e, w)
        | inr w1 => (Ok (Obj []), w1)
        end
    | GetTotalGasFee gasUnits => (Ok (Num (gasFee gasUnits)), w)
    | AccountState _ => (Ok (Obj [("code_hash", Str (codeHash w))]), w)
    | WalletIsLedgerEnabled => (Ok (Bool (ledger w)), w)
    | SetRequest _ => (Ok Undefined, w)
    | WalletPostSignedJson _ _ => (Ok (Obj [("success", Bool true)]), w)
    | SuperGet2faMethod => (Ok (Obj [("kind", Str "2fa-email")]), w)
    | Fetch _ => (Ok (Arr []), w)
    | Disable _ _ =>
        match disableFailure w with
        | Some msg => (Throw (failure msg), w)
        | None => (Ok (Obj []), setCode "main" w)
        end
    | SuperDeployMultisig _ => (Ok (Obj []), setCode "multisig-v2" w)
    | DispatchRefreshAccount => (Ok Undefined, w)
    end.

(** A chain on which nobody has paid or registered yet. *)
Definition genesis : Chain :=
  mkChain [] [] 1250000000000000000000 None false "main" None.

(** The same with a contract that asks for more than the wallet's minimum. *)
Definition costly : Chain :=
  mkChain [] [] 5000000000000000000000 None false "main" None.

(** The same with storage deposits failing for an unrelated reason. *)
Definition outage : Chain :=
  mkChain [] [] 1250000000000000000000 (Some "Exceeded the prepaid gas")
    false "main" None.

(** The receiver paid for storage but is not registered. *)
Definition paidOnly : Chain :=
  mkChain ["bob.near"] [] 1250000000000000000000 None false "main" None.

(** The receiver is registered but has not paid for storage. *)
Definition registeredOnly : Chain :=
  mkChain [] ["bob.near"] 1250000000000000000000 None false "main" None.

(** The receiver paid for storage and is registered. *)
Definition settled : Chain :=
  mkChain ["bob.near"] ["bob.near"] 1250000000000000000000 None false
    "main" None.

(** The account wrapped NEAR before. *)
Definition wrappedBefore : Chain :=
  mkChain ["alice.near"] [] 1250000000000000000000 None false "main" None.

(** A Ledger signs for the account. *)
Definition withLedger : Chain :=
  mkChain [] [] 1250000000000000000000 None true "main" None.

(** The multisig contract is deployed; disabling it fails as given. *)
Definition multisig (failing : option string) : Chain :=
  mkChain [] [] 1250000000000000000000 None false "multisig-v2" failing.

Definition fresh (w : Chain) (enabled : bool) : Store Chain :=
  mkStore w enabled Undefined.

Definition newcomer : Store Chain := fresh genesis false.

End Scenario.

(** ** The multisig contract of the small world

    [Scenario.chain] with a contract that answers [get_request]: the request
    it holds names a receiver and carries a [request_id] of its own. *)

Module MultisigScenario.

Definition pending : Value :=
  Obj [("receiver_id", Str "bob.near"); ("request_id", Num 3);
       ("actions", Arr [])].

Definition chain : Env Scenario.Chain :=
  fun c w =>
    match c with
    | ViewFunction _ _ method _ =>
        if (method =? "get_request")%string then (Ok pending, w)
        else Scenario.chain c w
    | _ => Scenario.chain c w
    end.

(** A store in which request 7 of [alice.near] awaits confirmation. *)
Definition awaiting : Store Scenario.Chain :=
  mkStore (Scenario.multisig None) true
    (Obj [("accountId", Str "alice.near"); ("requestId", Num 7)]).

End MultisigScenario.

(** ** Outages

    [Scenario.chain] with some of its services down, and a contract whose
    storage status has no [total]. *)

Module Outage.

Definition isView (c : Call) : bool :=
  match c with ViewFunction _ _ _ _ => true | _ => false end.

Definition isGetAccount (c : Call) : bool :=
  match c with WalletGetAccount _ => true | _ => false end.

Definition isGasFee (c : Call) : bool :=
  match c with GetTotalGasFee _ => true | _ => false end.

Definition isLedgerQuery (c : Call) : bool :=
  match c with WalletIsLedgerEnabled => true | _ => false end.

Definition isPost (c : Call) : bool :=
  match c with WalletPostSignedJson _ _ => true | _ => false end.

Definition isState (c : Call) : bool :=
  match c with AccountState _ => true | _ => false end.

Definition isFetchOf (path : string) (c : Call) : bool :=
  match c with Fetch p => (p =? path)%string | _ => false end.

Definition isDeploy (c : Call) : bool :=
  match c with SuperDeployMultisig _ => true | _ => false end.

Definition isRefresh (c : Call) : bool :=
  match c with DispatchRefreshAccount => true | _ => false end.

(** The calls picked by [down] fail with [msg]; the others go through. *)
Definition without (down : Call -> bool) (msg : string) (base : Env Scenario.Chain)
    : Env Scenario.Chain :=
  fun c w => if down c then (Throw (Scenario.failure msg), w) else base c w.

Definition lockedWallet : Env Scenario.Chain :=
  without isGetAccount "Wallet is locked" Scenario.chain.

Definition offline : Env Scenario.Chain :=
  without isView "Failed to fetch" Scenario.chain.

Definition noCleanupBinary : Env Scenario.Chain :=
  without (isFetchOf "/state_cleanup.wasm") "Failed to fetch" Scenario.chain.

Definition noLedgerAnswer : Env Scenario.Chain :=
  without isLedgerQuery "Ledger keys unavailable" Scenario.chain.

Definition noHelper : Env Scenario.Chain :=
  without isPost "Failed to fetch" Scenario.chain.


Definition viewLimit : Error :=
  Scenario.failure "State of contract alice.near is too large to be viewed".

(** A contract that answers [storage_balance_of] with a status that has no
    [total]. *)
Definition bareStatus : Value := Obj [("available", Str "0")].

Definition bare : Env Scenario.Chain :=
  fun c w =>
    match c with
    | ViewFunction _ _ method _ =>
        if (method =? "storage_balance_of")%string then (Ok bareStatus, w)
        else Scenario.chain c w
    | _ => Scenario.chain c w
    end.

End Outage.

(** * Properties *)

(** ** Sequencing *)

Section Sequencing.

Context {World : Type}.

Lemma triple_eta {A} (r : Outcome A * Store World * list Entry) :
  r = (result r, after r, log r).
Proof. destruct r as [[o s] t]. reflexivity. Qed.

Lemma bind_ok {A B} (m : Async A) (k : A -> Async B) (s s1 : Store World)
    (a : A) (t1 : list Entry) :
  m s = (Ok a, s1, t1) ->
  bind m k s = (result (k a s1), after (k a s1), t1 ++ log (k a s1)).
Proof.
  intro H. unfold bind. rewrite H.
  destruct (k a s1) as [[r s2] t2]. reflexivity.
Qed.

End Sequencing.

(** ** Read-only checks *)

Section RegistrationChecks.

Context {World : Type}.
Variable env : Env World.

Import FungibleTokens.

Lemma checkRegistration_run (contractName accountId : string) (s : Store World) :
  checkRegistration env contractName accountId s =
  match env (registrationQuery contractName accountId) (world s) with
  | (Ok v, w) =>
      (Ok v, mkStore w (has2fa s) (request s),
       [(registrationQuery contractName accountId, Ok v)])
  | (Throw e, w) =>
      (Ok Null, mkStore w (has2fa s) (request s),
       [(registrationQuery contractName accountId, Throw e)])
  end.
Proof.
  unfold checkRegistration, try_catch, external.
  destruct (env _ (world s)) as [[v | e] w]; reflexivity.
Qed.

Lemma isAccountUnregistered_run (contractName accountId : string) (s : Store World) :
  isAccountUnregistered env contractName accountId s =
  match env (registrationQuery contractName accountId) (world s) with
  | (answer, w) =>
      (Ok (match answer with Ok v => is_false v | Throw _ => false end),
       mkStore w (has2fa s) (request s),
       [(registrationQuery contractName accountId, answer)])
  end.
Proof.
  unfold isAccountUnregistered, bind. rewrite checkRegistration_run.
  destruct (env _ (world s)) as [[v | e] w]; reflexivity.
Qed.

Lemma isStorageDepositRequired_run (accountId contractName : string) (s : Store World) :
  isStorageDepositRequired env accountId contractName s =
  match env (storageQuery contractName accountId) (world s) with
  | (answer, w) =>
      (Ok (match answer with
           | Ok status => is_undefined (opt_member status "total")
           | Throw _ => false
           end),
       mkStore w (has2fa s) (request s),
       [(storageQuery contractName accountId, answer)])
  end.
Proof.
  unfold isStorageDepositRequired, getStorageBalance, try_catch, bind, external.
  destruct (env _ (world s)) as [[v | e] w]; reflexivity.
Qed.

Lemma is_false_iff (v : Value) : is_false v = true <-> v = Bool false.
Proof.
  split.
  - destruct v as [| | [|] | | | |]; simpl; intro H; congruence.
  - intros ->. reflexivity.
Qed.

Lemma is_undefined_iff (v : Value) : is_undefined v = true <-> v = Undefined.
Proof.
  split.
  - destruct v; simpl; intro H; congruence.
  - intros ->. reflexivity.
Qed.

Lemma isStorageDepositRequired_total (contractName accountId : string)
    (s : Store World) :
  exists b, result (isStorageDepositRequired env accountId contractName s) = Ok b.
Proof.
  rewrite isStorageDepositRequired_run.
  destruct (env _ (world s)) as [answer w]. unfold result. simpl. eauto.
Qed.

(** C4. [isStorageDepositRequired] always returns a boolean: [false] whenever
    the [storage_balance_of] query fails, and [true] exactly when the query
    succeeds with a status whose [total] is missing. *)
Theorem isStorageDepositRequired_fail_open
    (contractName accountId : string) (s : Store World) :
  let answer := fst (env (storageQuery contractName accountId) (world s)) in
  let returned := result (isStorageDepositRequired env accountId contractName s) in
  (exists b, returned = Ok b)
  /\ (forall e, answer = Throw e -> returned = Ok false)
  /\ (returned = Ok true <->
      exists status, answer = Ok status /\ opt_member status "total" = Undefined).
Proof.
  cbv zeta. rewrite isStorageDepositRequired_run.
  destruct (env _ (world s)) as [[status | e] w]; unfold result; simpl.
  - split; [eauto |]. split; [discriminate |]. split.
    + intro H. exists status. split; [reflexivity |].
      apply is_undefined_iff. congruence.
    + intros [status' [Hs Hu]]. injection Hs as <-.
      apply is_undefined_iff in Hu. now rewrite Hu.
  - split; [eauto |]. split; [reflexivity |]. split.
    + discriminate.
    + intros [status [Hs _]]. discriminate.
Qed.

(** C5. [checkRegistration] never throws and answers [null] when its view
    call fails; [isAccountUnregistered] returns [true] only when
    [checkRegistration] returned exactly [false], and [false] when the call
    failed or [checkRegistration] returned [true] or [null]. *)
Theorem isAccountUnregistered_only_on_false
    (contractName accountId : string) (s : Store World) :
  let answer := fst (env (registrationQuery contractName accountId) (world s)) in
  let returned := result (isAccountUnregistered env contractName accountId s) in
  exists checked,
    result (checkRegistration env contractName accountId s) = Ok checked
    /\ (forall e, answer = Throw e -> checked = Null /\ returned = Ok false)
    /\ (returned = Ok true <-> checked = Bool false)
    /\ (checked = Bool true \/ checked = Null -> returned = Ok false).
Proof.
  cbv zeta. rewrite isAccountUnregistered_run, checkRegistration_run.
  destruct (env _ (world s)) as [[v | e] w]; unfold result; simpl.
  - exists v. split; [reflexivity |]. split; [discriminate |]. split.
    + rewrite <- is_false_iff. split; congruence.
    + intros [-> | ->]; reflexivity.
  - exists Null. split; [reflexivity |]. split; [auto |]. split.
    + split; discriminate.
    + reflexivity.
Qed.

End RegistrationChecks.

(** ** Fee estimates *)

Section Fees.

Context {World : Type}.
Variable cfg : Config.
Variable env : Env World.

Import FungibleTokens.

Lemma given_nonempty (name : string) : name <> "" -> given (Some name) = true.
Proof.
  intro H. unfold given, truthy.
  destruct (String.eqb_spec name ""); [contradiction | reflexivity].
Qed.

Lemma getTotalGasFee_priced (fee : Z -> Z) (gasUnits : Z) (s : Store World) :
  (forall g w, fst (env (GetTotalGasFee g) w) = Ok (Num (fee g))) ->
  result (getTotalGasFee env gasUnits s) = Ok (Num (fee gasUnits)).
Proof.
  intro Hfee. unfold getTotalGasFee, external, result.
  specialize (Hfee gasUnits (world s)).
  destruct (env _ (world s)) as [answer w]. simpl in *. assumption.
Qed.

(** What [getEstimatedTotalFees] returns once both checks have run. *)
Lemma getEstimatedTotalFees_priced (fee : Z -> Z) (account contract : string)
    (s : Store World) (unregistered storageRequired : bool) :
  account <> "" -> contract <> "" ->
  (forall g w, fst (env (GetTotalGasFee g) w) = Ok (Num (fee g))) ->
  result (isAccountUnregistered env contract account s) = Ok unregistered ->
  result (isStorageDepositRequired env account contract
            (after (isAccountUnregistered env contract account s)))
    = Ok storageRequired ->
  result (getEstimatedTotalFees cfg env (Some account) (Some contract) s) =
  Ok (Num (if unregistered then
             fee (FT_TRANSFER_GAS cfg + FT_REGISTRATION_DEPOSIT_GAS cfg)
             + FT_REGISTRATION_DEPOSIT cfg
           else if storageRequired then
             fee (FT_TRANSFER_GAS cfg + FT_STORAGE_DEPOSIT_GAS cfg)
             + FT_MINIMUM_STORAGE_BALANCE cfg
           else fee (FT_TRANSFER_GAS cfg))).
Proof.
  intros Ha Hc Hfee Hreg Hsto.
  unfold getEstimatedTotalFees.
  rewrite (given_nonempty _ Ha), (given_nonempty _ Hc). cbn [andb].
  pose proof (triple_eta (isAccountUnregistered env contract account s)) as E1.
  rewrite Hreg in E1.
  rewrite (bind_ok _ _ _ _ _ _ E1). unfold result at 1. cbn [fst].
  set (s1 := after (isAccountUnregistered env contract account s)) in *.
  pose proof (triple_eta (isStorageDepositRequired env account contract s1)) as E2.
  rewrite Hsto in E2.
  rewrite (bind_ok _ _ _ _ _ _ E2). unfold result at 1. cbn [fst].
  set (s2 := after (isStorageDepositRequired env account contract s1)).
  destruct unregistered; [| destruct storageRequired].
  - pose proof (triple_eta (getTotalGasFee env
      (FT_TRANSFER_GAS cfg + FT_REGISTRATION_DEPOSIT_GAS cfg) s2)) as E3.
    rewrite (getTotalGasFee_priced fee _ s2 Hfee) in E3.
    rewrite (bind_ok _ _ _ _ _ _ E3). reflexivity.
  - pose proof (triple_eta (getTotalGasFee env
      (FT_TRANSFER_GAS cfg + FT_STORAGE_DEPOSIT_GAS cfg) s2)) as E3.
    rewrite (getTotalGasFee_priced fee _ s2 Hfee) in E3.
    rewrite (bind_ok _ _ _ _ _ _ E3). reflexivity.
  - exact (getTotalGasFee_priced fee (FT_TRANSFER_GAS cfg) s2 Hfee).
Qed.

(** C6. With one gas price for all three estimates, the fee when
    registration is required exceeds the fee when only a storage deposit is
    required, which exceeds the fee when neither is.  The constants of
    [../config] enter as they are used: the price does not fall when more
    gas is bought, registration is given at least the gas of a storage
    deposit, and the registration deposit exceeds the minimum storage
    balance, which is positive. *)
Theorem getEstimatedTotalFees_strictly_ordered (fee : Z -> Z)
    (account contract : string) (s1 s2 s3 : Store World) :
  account <> "" -> contract <> "" ->
  (forall g w, fst (env (GetTotalGasFee g) w) = Ok (Num (fee g))) ->
  (forall g g', g <= g' -> fee g <= fee g') ->
  0 <= FT_STORAGE_DEPOSIT_GAS cfg <= FT_REGISTRATION_DEPOSIT_GAS cfg ->
  0 < FT_MINIMUM_STORAGE_BALANCE cfg < FT_REGISTRATION_DEPOSIT cfg ->
  result (isAccountUnregistered env contract account s1) = Ok true ->
  result (isAccountUnregistered env contract account s2) = Ok false ->
  result (isStorageDepositRequired env account contract
            (after (isAccountUnregistered env contract account s2))) = Ok true ->
  result (isAccountUnregistered env contract account s3) = Ok false ->
  result (isStorageDepositRequired env account contract
            (after (isAccountUnregistered env contract account s3))) = Ok false ->
  exists withRegistration withStorage plain,
    result (getEstimatedTotalFees cfg env (Some account) (Some contract) s1)
      = Ok (Num withRegistration)
    /\ result (getEstimatedTotalFees cfg env (Some account) (Some contract) s2)
      = Ok (Num withStorage)
    /\ result (getEstimatedTotalFees cfg env (Some account) (Some contract) s3)
      = Ok (Num plain)
    /\ plain < withStorage < withRegistration.
Proof.
  intros Ha Hc Hfee Hmono Hgas Hdep Hr1 Hr2 Hs2 Hr3 Hs3.
  destruct (isStorageDepositRequired_total env contract account
              (after (isAccountUnregistered env contract account s1))) as [b1 Hs1].
  rewrite (getEstimatedTotalFees_priced fee account contract s1 true b1 Ha Hc Hfee Hr1 Hs1).
  rewrite (getEstimatedTotalFees_priced fee account contract s2 false true Ha Hc Hfee Hr2 Hs2).
  rewrite (getEstimatedTotalFees_priced fee account contract s3 false false Ha Hc Hfee Hr3 Hs3).
  do 3 eexists. repeat split.
  - pose proof (Hmono (FT_TRANSFER_GAS cfg)
                  (FT_TRANSFER_GAS cfg + FT_STORAGE_DEPOSIT_GAS cfg)). lia.
  - pose proof (Hmono (FT_TRANSFER_GAS cfg + FT_STORAGE_DEPOSIT_GAS cfg)
                  (FT_TRANSFER_GAS cfg + FT_REGISTRATION_DEPOSIT_GAS cfg)). lia.
Qed.

End Fees.

(** ** Transfers and wrapping *)

Section Transfers.

Context {World : Type}.
Variable cfg : Config.
Variable parseNearAmount : string -> option Z.
Variable env : Env World.

Import FungibleTokens.

Ltac ask :=
  match goal with
  | |- context [env ?c ?w] =>
      let w' := fresh "w" in
      destruct (env c w) as [[?answer | ?failure] w'] eqn:?
  end.

(** Unfolds a run down to the answers of the environment and splits on each
    answer and each test. *)
Ltac play :=
  unfold wrapNear, isStorageDepositRequired, getStorageBalance,
    isAccountUnregistered, checkRegistration, transferStorageDeposit,
    bind, try_catch, external, ret in *;
  cbn [world has2fa request fst snd log result after app] in *;
  repeat (first
            [ ask
            | match goal with
              | |- context [if ?b then _ else _] => destruct b eqn:?
              end ];
          cbn [world has2fa request fst snd log result after app] in * ).

(** Reads what a hypothesis says about the entries of an explicit log. *)
Ltac settle :=
  cbn [In hd_error submissions storageQuery registrationQuery] in *;
  repeat match goal with
         | H : _ \/ _ |- _ => destruct H
         | H : False |- _ => contradiction
         | H : (_, _) = (_, _) |- _ => inversion H; clear H; subst
         | H : Some _ = Some _ |- _ => inversion H; clear H; subst
         | H : None = Some _ |- _ => discriminate H
         end.



Lemma wrapNear_submissions (accountId : string) (wrapAmount : Z) (toWNear : bool)
    (storage : Value) (s : Store World) :
  let run := wrapNear cfg parseNearAmount env accountId wrapAmount toWNear s in
  In (wrapStorageQuery cfg accountId accountId, Ok storage) (log run) ->
  submissions (log run) =
    [(mkTransaction (NEAR_TOKEN_ID cfg)
        ((if truthy storage then []
          else [wnear_storage_deposit cfg parseNearAmount])
         ++ [near_wrap_action cfg wrapAmount toWNear]),
      result run)].
Proof.
  intros run Hstorage. subst run.
  play; unfold wrapStorageQuery in *; settle;
    try reflexivity;
    match goal with
    | Hn : negb ?b = _, Ht : ?b = _ |- _ => rewrite Ht in Hn; discriminate Hn
    end.
Qed.

(** C8. Wrapping ([toWNear] true): when the account has no storage balance
    with the wrapped-token contract, the one transaction submitted carries
    one [storage_deposit] action funded with [parseNearAmount('0.00125')]
    followed by the [near_deposit] action; with a storage balance it carries
    the [near_deposit] action alone. *)
Theorem wrapNear_deposit_actions (accountId : string) (wrapAmount : Z)
    (storage : Value) (s : Store World) :
  let run := wrapNear cfg parseNearAmount env accountId wrapAmount true s in
  In (wrapStorageQuery cfg accountId accountId, Ok storage) (log run) ->
  submissions (log run) =
    [(mkTransaction (NEAR_TOKEN_ID cfg)
        (if truthy storage then
           [functionCall "near_deposit" (Obj [])
              (FT_STORAGE_DEPOSIT_GAS cfg) (Some wrapAmount)]
         else
           [functionCall "storage_deposit" (Obj [])
              (FT_STORAGE_DEPOSIT_GAS cfg) (parseNearAmount "0.00125");
            functionCall "near_deposit" (Obj [])
              (FT_STORAGE_DEPOSIT_GAS cfg) (Some wrapAmount)]),
      result run)].
Proof.
  intros run Hstorage. subst run.
  rewrite (wrapNear_submissions accountId wrapAmount true storage s Hstorage).
  destruct (truthy storage); reflexivity.
Qed.

(** C10. Whether [wrapNear] puts the [storage_deposit] action first depends
    on the answer of the storage-balance query alone: without a storage
    balance it is put ahead of [near_withdraw] just as ahead of
    [near_deposit]. *)
Theorem wrapNear_storage_deposit_either_way (accountId : string) (wrapAmount : Z)
    (toWNear : bool) (storage : Value) (s : Store World) :
  let run := wrapNear cfg parseNearAmount env accountId wrapAmount toWNear s in
  In (wrapStorageQuery cfg accountId accountId, Ok storage) (log run) ->
  truthy storage = false ->
  submissions (log run) =
    [(mkTransaction (NEAR_TOKEN_ID cfg)
        [functionCall "storage_deposit" (Obj [])
           (FT_STORAGE_DEPOSIT_GAS cfg) (parseNearAmount "0.00125");
         if toWNear then
           functionCall "near_deposit" (Obj [])
             (FT_STORAGE_DEPOSIT_GAS cfg) (Some wrapAmount)
         else
           functionCall "near_withdraw" (Obj [("amount", Num wrapAmount)])
             (FT_STORAGE_DEPOSIT_GAS cfg) (Some (TOKEN_TRANSFER_DEPOSIT cfg))],
      result run)].
Proof.
  intros run Hstorage Hnone. subst run.
  rewrite (wrapNear_submissions accountId wrapAmount toWNear storage s Hstorage).
  rewrite Hnone. destruct toWNear; reflexivity.
Qed.

End Transfers.

(** ** Two-factor control *)

Section TwoFactorFacts.

Context {World : Type}.
Variable cfg : Config.
Variable env : Env World.
Variable this : Account.

Import TwoFactor.

Ltac ask :=
  match goal with
  | |- context [env ?c ?w] =>
      let w' := fresh "w" in
      destruct (env c w) as [[?answer | ?failure] w'] eqn:?
  end.

Ltac play :=
  unfold get2faMethod, has2faEnabled, initTwoFactor, deployMultisig,
    disableMultisig, fetchBytes, setRequest, set_has2fa, call_async,
    bind, try_catch, external, ret, throw in *;
  cbn [world has2fa request fst snd log result after app] in *;
  repeat (first
            [ ask
            | match goal with
              | |- context [if ?b then _ else _] => destruct b eqn:?
              end ];
          cbn [world has2fa request fst snd log result after app] in * ).

(** C7. When the wallet reports a Ledger signer, [initTwoFactor] throws the
    [WalletError] of type [initTwoFactor.ledgerEnabled] having done nothing
    but ask: the stored request and the [has2fa] field are as before and the
    helper service was not called.  When it reports none, the stored request
    is first overwritten with [{ requestId: -1 }] and then [/2fa/init] is
    posted with the account id and the method; the answer of the post is the
    answer of [initTwoFactor]. *)
Theorem initTwoFactor_ledger_first (accountId method ledger : Value)
    (s : Store World) :
  let run := initTwoFactor env accountId method s in
  fst (env WalletIsLedgerEnabled (world s)) = Ok ledger ->
  if truthy ledger then
    result run =
      Throw (mkError (WalletError "initTwoFactor.ledgerEnabled")
               "Ledger Hardware Wallet is enabled")
    /\ log run = [(WalletIsLedgerEnabled, Ok ledger)]
    /\ request (after run) = request s
    /\ has2fa (after run) = has2fa s
  else
    log run =
      [(WalletIsLedgerEnabled, Ok ledger);
       (SetRequest (Obj [("requestId", Num (-1))]), Ok Undefined);
       (WalletPostSignedJson "/2fa/init"
          (Obj [("accountId", accountId); ("method", method)]),
        result run)]
    /\ request (after run) = Obj [("requestId", Num (-1))].
Proof.
  intros run Hledger. subst run. unfold initTwoFactor, bind, external.
  destruct (env WalletIsLedgerEnabled (world s)) as [answer w] eqn:Hask.
  cbn [fst] in Hledger. subst answer.
  destruct (truthy ledger) eqn:Htruthy.
  - unfold throw. cbn. repeat split; reflexivity.
  - unfold setRequest. cbn [world has2fa request].
    destruct (env (WalletPostSignedJson "/2fa/init" _) w) as [posted w1].
    cbn. split; reflexivity.
Qed.

(** C9. [get2faMethod] calls the inherited [get2faMethod] on every run and
    returns its answer: what it does is to start [has2faEnabled] and then to
    ask the parent class, whatever [has2faEnabled] settles to.  The [null] of
    the other branch is never what it returns. *)
Theorem get2faMethod_always_asks_parent (s : Store World) :
  let check := has2faEnabled cfg env this s in
  let run := get2faMethod cfg env this s in
  log run = log check ++ [(SuperGet2faMethod, result run)]
  /\ result run = fst (env SuperGet2faMethod (world (after check))).
Proof.
  cbv zeta. unfold get2faMethod, call_async, bind.
  destruct (has2faEnabled cfg env this s) as [[[enabled | e] s1] t1];
    unfold promise_truthy, external; cbn [after fst snd];
    destruct (env SuperGet2faMethod (world s1)) as [answer w];
    split; reflexivity.
Qed.

(** What [disableMultisig] does, by the answer of [disable]: on success and
    on a failure whose message does not mention the view limit it goes on
    to refresh the account and to clear [has2fa]. *)
Lemma disableMultisig_after_disable (s : Store World) (main cleanup : Value)
    (w1 w2 w3 : World) (answer : Outcome Value) :
  env (Fetch "/main.wasm") (world s) = (Ok main, w1) ->
  env (Fetch "/state_cleanup.wasm") w1 = (Ok cleanup, w2) ->
  env (Disable main cleanup) w2 = (answer, w3) ->
  let run := disableMultisig env s in
  match answer with
  | Ok v =>
      match fst (env DispatchRefreshAccount w3) with
      | Ok _ => result run = Ok v /\ has2fa (after run) = false
      | Throw e => result run = Throw e /\ has2fa (after run) = has2fa s
      end
  | Throw e =>
      if includes (message e) "too large to be viewed" then
        result run = Throw waitError /\ has2fa (after run) = has2fa s
      else
        match fst (env DispatchRefreshAccount w3) with
        | Ok _ => result run = Ok Undefined /\ has2fa (after run) = false
        | Throw e' => result run = Throw e' /\ has2fa (after run) = has2fa s
        end
  end.
Proof.
  intros Hmain Hcleanup Hdisable run. subst run.
  unfold disableMultisig, fetchBytes, bind, try_catch, external, throw, ret,
    set_has2fa.
  rewrite Hmain. cbn [world has2fa request]. rewrite Hcleanup.
  cbn [world has2fa request]. rewrite Hdisable.
  destruct answer as [v | e].
  - cbn [world has2fa request].
    destruct (env DispatchRefreshAccount w3) as [[u | e] w4];
      cbn; split; reflexivity.
  - destruct (includes (message e) "too large to be viewed").
    + cbn. split; reflexivity.
    + cbn [world has2fa request].
      destruct (env DispatchRefreshAccount w3) as [[u | e'] w4];
        cbn; split; reflexivity.
Qed.

(** The sibling [deployMultisig] sets [has2fa] only when the deployment
    went through; a failure reaches the caller. *)
Lemma deployMultisig_flag (s : Store World) :
  let run := deployMultisig env s in
  match result run with
  | Ok _ => has2fa (after run) = true
  | Throw _ => has2fa (after run) = has2fa s
  end.
Proof.
  cbv zeta. play; reflexivity.
Qed.

End TwoFactorFacts.

(** * Runs on the small world *)

Section Runs.

Import FungibleTokens TwoFactor Scenario.

(** The scenario of the specification: ten tokens to a receiver the contract
    has never seen. *)
Example transfer_to_newcomer_log :
  log (transfer config chain "alice.near" (Some "token.near") 10 "bob.near"
         (Str "thanks") newcomer) =
  [(WalletGetAccount "alice.near", Ok (Obj []));
   (storageQuery "token.near" "bob.near", Ok Null);
   (SignAndSendTransaction "alice.near"
      (storageDepositTransaction config "token.near" "bob.near"
         1250000000000000000000), Ok (Obj []));
   (registrationQuery "token.near" "bob.near", Ok (Bool false));
   (SignAndSendTransaction "alice.near"
      (mkTransaction "token.near"
         [register_account config "bob.near";
          ft_transfer config 10 (Str "thanks") "bob.near"]), Ok (Obj []))].
Proof. reflexivity. Qed.

(** A storage deposit that fails for another reason is passed over. *)
Example transfer_through_outage :
  let run := transfer config chain "alice.near" (Some "token.near") 10
               "bob.near" Undefined (fresh outage false) in
  result run = Ok (Obj [])
  /\ submissions (log run) =
     [(storageDepositTransaction config "token.near" "bob.near"
         1250000000000000000000,
       Throw (failure "Exceeded the prepaid gas"));
      (transferTransaction config "token.near" true 10 Undefined "bob.near",
       Ok (Obj []))].
Proof. split; reflexivity. Qed.

(** No code hash of a multisig contract, and the parent class is asked all
    the same. *)
Example get2faMethod_without_2fa :
  result (has2faEnabled config chain "alice.near" newcomer) = Ok false
  /\ result (get2faMethod config chain "alice.near" newcomer)
     = Ok (Obj [("kind", Str "2fa-email")]).
Proof. split; reflexivity. Qed.

(** No Ledger: the request is reset, then the helper is called. *)
Example initTwoFactor_without_ledger :
  let run := initTwoFactor chain (Str "alice.near") (Str "2fa-email") newcomer in
  log run =
    [(WalletIsLedgerEnabled, Ok (Bool false));
     (SetRequest noRequest, Ok Undefined);
     (WalletPostSignedJson "/2fa/init"
        (Obj [("accountId", Str "alice.near"); ("method", Str "2fa-email")]),
      Ok (Obj [("success", Bool true)]))]
  /\ request (after run) = noRequest.
Proof. split; reflexivity. Qed.

(** The view limit is reported as the fifteen-minute wait and leaves
    [has2fa] alone. *)
Example disableMultisig_view_limit :
  let s := fresh (multisig (Some "State of contract alice.near is too large to be viewed")) true in
  let run := disableMultisig chain s in
  result run = Throw waitError /\ has2fa (after run) = true.
Proof. split; reflexivity. Qed.

End Runs.



Lemma getEstimatedTotalFees_strictly_ordered_witness :
  exists withRegistration withStorage plain,
    result (FungibleTokens.getEstimatedTotalFees Scenario.config Scenario.chain
              (Some "bob.near") (Some "token.near")
              (Scenario.fresh Scenario.genesis false))
      = Ok (Num withRegistration)
    /\ result (FungibleTokens.getEstimatedTotalFees Scenario.config Scenario.chain
                 (Some "bob.near") (Some "token.near")
                 (Scenario.fresh Scenario.registeredOnly false))
      = Ok (Num withStorage)
    /\ result (FungibleTokens.getEstimatedTotalFees Scenario.config Scenario.chain
                 (Some "bob.near") (Some "token.near")
                 (Scenario.fresh Scenario.settled false))
      = Ok (Num plain)
    /\ plain < withStorage < withRegistration.
Proof.
  apply (getEstimatedTotalFees_strictly_ordered Scenario.config Scenario.chain
           Scenario.gasFee "bob.near" "token.near").
  - discriminate.
  - discriminate.
  - intros g w. reflexivity.
  - intros g g' H. unfold Scenario.gasFee. lia.
  - simpl. lia.
  - simpl. lia.
  - reflexivity.
  - reflexivity.
  - reflexivity.
  - reflexivity.
  - reflexivity.
Defined.

Lemma initTwoFactor_ledger_first_witness :
  let s := Scenario.fresh Scenario.withLedger false in
  let run := TwoFactor.initTwoFactor Scenario.chain (Str "alice.near")
               (Str "2fa-email") s in
  result run =
    Throw (mkError (WalletError "initTwoFactor.ledgerEnabled")
             "Ledger Hardware Wallet is enabled")
  /\ log run = [(WalletIsLedgerEnabled, Ok (Bool true))]
  /\ request (after run) = request s
  /\ has2fa (after run) = has2fa s.
Proof.
  exact (initTwoFactor_ledger_first Scenario.chain (Str "alice.near")
           (Str "2fa-email") (Bool true)
           (Scenario.fresh Scenario.withLedger false) eq_refl).
Defined.

Lemma wrapNear_deposit_actions_witness :
  let run := FungibleTokens.wrapNear Scenario.config Scenario.parseNearAmount
               Scenario.chain "alice.near" 5000000000000000000000000 true
               (Scenario.fresh Scenario.genesis false) in
  submissions (log run) =
    [(mkTransaction "wrap.near"
        [functionCall "storage_deposit" (Obj []) 30000000000000
           (Some 1250000000000000000000);
         functionCall "near_deposit" (Obj []) 30000000000000
           (Some 5000000000000000000000000)],
      result run)].
Proof.
  apply (wrapNear_deposit_actions Scenario.config Scenario.parseNearAmount
           Scenario.chain "alice.near" 5000000000000000000000000 Null
           (Scenario.fresh Scenario.genesis false)).
  simpl. auto.
Defined.

Lemma wrapNear_storage_deposit_either_way_witness :
  let run := FungibleTokens.wrapNear Scenario.config Scenario.parseNearAmount
               Scenario.chain "alice.near" 5000000000000000000000000 false
               (Scenario.fresh Scenario.genesis false) in
  submissions (log run) =
    [(mkTransaction "wrap.near"
        [functionCall "storage_deposit" (Obj []) 30000000000000
           (Some 1250000000000000000000);
         functionCall "near_withdraw"
           (Obj [("amount", Num 5000000000000000000000000)]) 30000000000000
           (Some 1)],
      result run)].
Proof.
  apply (wrapNear_storage_deposit_either_way Scenario.config
           Scenario.parseNearAmount Scenario.chain "alice.near"
           5000000000000000000000000 false Null
           (Scenario.fresh Scenario.genesis false)).
  - simpl. auto.
  - reflexivity.
Defined.

(** C2. [disableMultisig] on an account whose [disable] call fails with
    "Exceeded the prepaid gas": the failure does not reach the caller, who
    gets [undefined]; the account is refreshed and [has2fa] is cleared,
    although the multisig contract is still deployed. *)
Theorem disableMultisig_drops_other_failures :
  let s := Scenario.fresh
             (Scenario.multisig (Some "Exceeded the prepaid gas")) true in
  let run := TwoFactor.disableMultisig Scenario.chain s in
  log run =
    [(Fetch "/main.wasm", Ok (Arr []));
     (Fetch "/state_cleanup.wasm", Ok (Arr []));
     (Disable (Arr []) (Arr []),
      Throw (Scenario.failure "Exceeded the prepaid gas"));
     (DispatchRefreshAccount, Ok Undefined)]
  /\ result run = Ok Undefined
  /\ has2fa s = true
  /\ has2fa (after run) = false
  /\ Scenario.codeHash (world (after run)) = "multisig-v2".
Proof. repeat split; reflexivity. Qed.

(** * Further properties *)

(** ** Substring search and object literals *)

Section Builtins.

Lemma prefix_iff (needle s : string) :
  String.prefix needle s = true <-> exists rest, s = (needle ++ rest)%string.
Proof.
  revert s. induction needle as [| c needle IH]; intro s.
  - split; [intros _; exists s; reflexivity | intros _; destruct s; reflexivity].
  - destruct s as [| d s]; simpl.
    + split; [discriminate | intros [rest H]; discriminate].
    + destruct (Ascii.ascii_dec c d) as [-> | Hcd].
      * rewrite IH. split; intros [rest H]; exists rest; congruence.
      * split; [discriminate | intros [rest H]; congruence].
Qed.

Lemma includes_anywhere (before needle behind : string) :
  includes (before ++ needle ++ behind)%string needle = true.
Proof.
  induction before as [| c before IH].
  - assert (String.prefix needle (needle ++ behind)%string = true) as H
      by (apply prefix_iff; eauto).
    change ("" ++ needle ++ behind)%string with (needle ++ behind)%string.
    destruct (needle ++ behind)%string; cbn [includes]; rewrite H; reflexivity.
  - change (String c before ++ needle ++ behind)%string
      with (String c (before ++ needle ++ behind))%string.
    cbn [includes]. rewrite IH.
    destruct (String.prefix needle _); reflexivity.
Qed.

Lemma assoc_define_same (k : string) (v : Value) (fields : list (string * Value)) :
  assoc k (define k v fields) = v.
Proof.
  induction fields as [| [k' v'] fields IH]; simpl.
  - now rewrite String.eqb_refl.
  - destruct (String.eqb_spec k k') as [-> | Hk]; simpl.
    + now rewrite String.eqb_refl.
    + destruct (String.eqb_spec k k'); [contradiction | exact IH].
Qed.

Lemma assoc_define_other (k k0 : string) (v : Value)
    (fields : list (string * Value)) :
  k0 <> k -> assoc k0 (define k v fields) = assoc k0 fields.
Proof.
  intro Hk. induction fields as [| [k' v'] fields IH]; simpl.
  - destruct (String.eqb_spec k0 k); [contradiction | reflexivity].
  - destruct (String.eqb_spec k k') as [-> | Hkk]; simpl.
    + destruct (String.eqb_spec k0 k'); [contradiction | reflexivity].
    + destruct (String.eqb_spec k0 k'); [reflexivity | exact IH].
Qed.

End Builtins.

(** ** More on transfers *)

Section MoreTransfers.

Context {World : Type}.
Variable cfg : Config.
Variable parseNearAmount : string -> option Z.
Variable env : Env World.

Import FungibleTokens.

Ltac ask :=
  match goal with
  | |- context [env ?c ?w] =>
      let w' := fresh "w" in
      destruct (env c w) as [[?answer | ?failure] w'] eqn:?
  end.

Ltac play :=
  unfold wrapNear, getEstimatedTotalNearAmount, getEstimatedTotalFees,
    getTotalGasFee, isStorageDepositRequired, getStorageBalance,
    isAccountUnregistered, checkRegistration, transferStorageDeposit,
    bind, try_catch, external, ret in *;
  cbn [world has2fa request fst snd log result after app] in *;
  repeat (first
            [ ask
            | match goal with
              | |- context [if ?b then _ else _] => destruct b eqn:?
              end ];
          cbn [world has2fa request fst snd log result after app] in * ).

Ltac settle :=
  cbn [In hd_error nth_error submissions storageQuery registrationQuery
         wrapStorageQuery] in *;
  repeat match goal with
         | H : _ \/ _ |- _ => destruct H
         | H : False |- _ => contradiction
         | H : (_, _) = (_, _) |- _ => inversion H; clear H; subst
         | H : Some _ = Some _ |- _ => inversion H; clear H; subst
         | H : None = Some _ |- _ => discriminate H
         end.

(** X1. Without a contract name ([undefined] or the empty string)
    [transfer] asks the wallet for the account and then only calls
    [sendMoney(receiverId, amount)], whose answer it returns: no view call is
    made and no transaction is assembled. *)
Theorem transfer_native_sends_money (accountId receiver : string)
    (contractName : option string) (amount : Z) (memo : Value)
    (s : Store World) :
  given contractName = false ->
  let run := transfer cfg env accountId contractName amount receiver memo s in
  match fst (env (WalletGetAccount accountId) (world s)) with
  | Ok account =>
      log run = [(WalletGetAccount accountId, Ok account);
                 (SendMoney accountId receiver amount, result run)]
  | Throw e =>
      log run = [(WalletGetAccount accountId, Throw e)] /\ result run = Throw e
  end.
Proof.
  intros Hgiven run. subst run. unfold transfer.
  destruct contractName as [contract |]; rewrite ?Hgiven; play;
    first [reflexivity | split; reflexivity].
Qed.

(** X2. When the wallet cannot produce the account, [transfer] and
    [wrapNear] fail with the wallet's error and have called nothing else. *)
Theorem account_failure_stops_everything (accountId receiver : string)
    (contractName : option string) (amount : Z) (memo : Value)
    (toWNear : bool) (e : Error) (s : Store World) :
  fst (env (WalletGetAccount accountId) (world s)) = Throw e ->
  let sent := transfer cfg env accountId contractName amount receiver memo s in
  let wrapped := wrapNear cfg parseNearAmount env accountId amount toWNear s in
  result sent = Throw e
  /\ log sent = [(WalletGetAccount accountId, Throw e)]
  /\ result wrapped = Throw e
  /\ log wrapped = [(WalletGetAccount accountId, Throw e)].
Proof.
  intros Hfail sent wrapped. subst sent wrapped.
  unfold transfer, wrapNear, bind, external.
  destruct (env (WalletGetAccount accountId) (world s)) as [answer w].
  cbn [fst] in Hfail. subst answer. repeat split; reflexivity.
Qed.

(** X3. When the storage query fails or answers a status that has a
    [total], a token transfer submits no storage deposit: the transfer
    transaction is the only one submitted. *)
Theorem transfer_without_storage_deposit
    (accountId contract receiver : string) (amount : Z) (memo : Value)
    (answer : Outcome Value) (s : Store World) :
  contract <> "" ->
  let run := transfer cfg env accountId (Some contract) amount receiver memo s in
  In (storageQuery contract receiver, answer) (log run) ->
  match answer with
  | Ok status => opt_member status "total" <> Undefined
  | Throw _ => True
  end ->
  exists unregistered,
    submissions (log run) =
      [(transferTransaction cfg contract unregistered amount memo receiver,
        result run)].
Proof.
  intros Hc run Hquery Hstatus. subst run.
  unfold transfer in *. rewrite (given_nonempty _ Hc) in *.
  play. all: settle.
  all: try match goal with
       | H : is_undefined ?v = true |- _ =>
           apply is_undefined_iff in H; contradiction
       end.
  all: eexists; reflexivity.
Qed.

(** X4. Whatever the environment answers, a token transfer submits at most
    three transactions, every one of them to the token contract, and never
    calls [sendMoney]. *)
Theorem transfer_token_submissions
    (accountId contract receiver : string) (amount : Z) (memo : Value)
    (s : Store World) :
  contract <> "" ->
  let run := transfer cfg env accountId (Some contract) amount receiver memo s in
  Forall (fun submitted => receiverId (fst submitted) = contract)
    (submissions (log run))
  /\ (List.length (submissions (log run)) <= 3)%nat
  /\ (forall account to sum answer,
        ~ In (SendMoney account to sum, answer) (log run)).
Proof.
  intros Hc run. subst run.
  unfold transfer in *. rewrite (given_nonempty _ Hc) in *.
  play.
  all: cbn [submissions storageQuery registrationQuery List.length].
  all: split; [repeat constructor | split; [lia |]].
  all: intros account to sum answered Hin; settle.
Qed.



(** X7. Without an account id or without a contract name
    [getEstimatedTotalFees] asks no contract anything: its one call prices
    [FT_TRANSFER_GAS] when a contract name is given and [SEND_NEAR_GAS]
    otherwise, and the answer, or the failure, is returned as it is. *)
Theorem getEstimatedTotalFees_without_context
    (accountId contractName : option string) (s : Store World) :
  given contractName && given accountId = false ->
  let run := getEstimatedTotalFees cfg env accountId contractName s in
  log run =
    [(GetTotalGasFee (if given contractName then FT_TRANSFER_GAS cfg
                      else SEND_NEAR_GAS cfg),
      result run)].
Proof.
  intros Hgiven run. subst run. unfold getEstimatedTotalFees.
  destruct contractName as [contract |], accountId as [account |];
    rewrite ?Hgiven; play; reflexivity.
Qed.


(** X9. When both view queries fail, the estimate is that of a plain
    token transfer: the two failures are dropped and [FT_TRANSFER_GAS] alone
    is priced. *)
Theorem getEstimatedTotalFees_queries_down
    (account contract : string) (e1 e2 : Error) (s : Store World) :
  account <> "" -> contract <> "" ->
  let run := getEstimatedTotalFees cfg env (Some account) (Some contract) s in
  In (registrationQuery contract account, Throw e1) (log run) ->
  In (storageQuery contract account, Throw e2) (log run) ->
  log run =
    [(registrationQuery contract account, Throw e1);
     (storageQuery contract account, Throw e2);
     (GetTotalGasFee (FT_TRANSFER_GAS cfg), result run)].
Proof.
  intros Ha Hc run Hreg Hsto. subst run. unfold getEstimatedTotalFees in *.
  rewrite (given_nonempty _ Ha), (given_nonempty _ Hc) in *.
  cbn [andb] in *. play. all: settle.
  all: try discriminate.
  all: reflexivity.
Qed.


(** X11. [wrapNear] does not guess when its storage query fails: the
    failure is the failure of [wrapNear] and no transaction is submitted. *)
Theorem wrapNear_query_failure (accountId : string) (wrapAmount : Z)
    (toWNear : bool) (e : Error) (s : Store World) :
  let run := wrapNear cfg parseNearAmount env accountId wrapAmount toWNear s in
  In (wrapStorageQuery cfg accountId accountId, Throw e) (log run) ->
  result run = Throw e /\ submissions (log run) = [].
Proof.
  intros run Hquery. subst run.
  play; settle; split; reflexivity.
Qed.

(** X12. The two storage checks read a status differently.  For a status
    object without [total], [isStorageDepositRequired] says that a deposit
    is required, while [wrapNear], which only tests whether the status is
    there, submits the wrap action without a storage deposit. *)
Theorem storage_checks_disagree (fields : list (string * Value))
    (contract accountId : string) (wrapAmount : Z) (toWNear : bool)
    (s s' : Store World) :
  assoc "total" fields = Undefined ->
  fst (env (storageQuery contract accountId) (world s)) = Ok (Obj fields) ->
  let wrapped := wrapNear cfg parseNearAmount env accountId wrapAmount toWNear s' in
  In (wrapStorageQuery cfg accountId accountId, Ok (Obj fields)) (log wrapped) ->
  result (isStorageDepositRequired env accountId contract s) = Ok true
  /\ submissions (log wrapped) =
     [(mkTransaction (NEAR_TOKEN_ID cfg)
         [near_wrap_action cfg wrapAmount toWNear],
       result wrapped)].
Proof.
  intros Htotal Hstatus wrapped Hquery. subst wrapped. split.
  - rewrite isStorageDepositRequired_run.
    destruct (env (storageQuery contract accountId) (world s)) as [answer w].
    cbn [fst] in Hstatus. subst answer. unfold result. cbn.
    now rewrite Htotal.
  - play; settle; try discriminate; reflexivity.
Qed.

(** X13. A token object with a non-empty contract name is identified by
    that name, whatever metadata it carries, so two such tokens with one
    contract name are the same token; with no contract name, or an empty
    one, it is identified by the symbol of its on-chain metadata, which is
    [undefined] when there is no metadata. *)
Theorem getUniqueTokenIdentity_prefers_contract
    (fields others : list (string * Value)) (name : string) :
  assoc "contractName" fields = Str name ->
  assoc "contractName" others = Str name ->
  if (name =? "")%string then
    getUniqueTokenIdentity (Obj fields) =
      Ok (opt_member (assoc "onChainFTMetadata" fields) "symbol")
  else
    getUniqueTokenIdentity (Obj fields) = Ok (Str name)
    /\ getUniqueTokenIdentity (Obj others) = getUniqueTokenIdentity (Obj fields).
Proof.
  intros Hfields Hothers.
  unfold getUniqueTokenIdentity, or_else, member.
  rewrite Hfields, Hothers. cbn [truthy].
  destruct (name =? "")%string; cbn [negb]; [| split]; reflexivity.
Qed.

End MoreTransfers.

(** ** More on two-factor control *)

Section MoreTwoFactor.

Context {World : Type}.
Variable cfg : Config.
Variable env : Env World.
Variable this : Account.

Import TwoFactor.

Ltac ask :=
  match goal with
  | |- context [env ?c ?w] =>
      let w' := fresh "w" in
      destruct (env c w) as [[?answer | ?failure] w'] eqn:?
  end.

Ltac play :=
  unfold getMultisigRequest, getRequest, has2faEnabled, initTwoFactor,
    deployMultisig, disableMultisig, fetchBytes, setRequest, set_has2fa,
    bind, try_catch, external, ret, throw in *;
  cbn [world has2fa request fst snd log result after app] in *;
  repeat (first
            [ ask
            | match goal with
              | |- context [if ?b then _ else _] => destruct b eqn:?
              end ];
          cbn [world has2fa request fst snd log result after app] in * ).

Ltac settle :=
  cbn [In] in *;
  repeat match goal with
         | H : _ \/ _ |- _ => destruct H
         | H : False |- _ => contradiction
         | H : (_, _) = (_, _) |- _ => inversion H; clear H; subst
         end.

Lemma array_includes_iff (hashes : list string) (v : Value) :
  array_includes hashes v = true <->
  exists hash, v = Str hash /\ In hash hashes.
Proof.
  unfold array_includes. split.
  - destruct v as [| | b | n | h | items | fields]; try discriminate.
    intro H. apply existsb_exists in H. destruct H as [x [Hin Heq]].
    apply String.eqb_eq in Heq. subst x. eauto.
  - intros [hash [-> Hin]]. apply existsb_exists. exists hash.
    split; [assumption | apply String.eqb_refl].
Qed.

(** X14. [has2faEnabled] answers [true] exactly when the account state
    carries a [code_hash] that is a string of [MULTISIG_CONTRACT_HASHES]; a
    missing state, a state without [code_hash] and a hash that is not listed
    all give [false], and a failure of the state query is a failure of
    [has2faEnabled]. *)
Theorem has2faEnabled_by_code_hash (account : Account) (s : Store World) :
  let run := has2faEnabled cfg env account s in
  match fst (env (AccountState account) (world s)) with
  | Ok state =>
      exists enabled,
        result run = Ok enabled
        /\ (enabled = true <->
            exists hash,
              member state "code_hash" = Str hash
              /\ In hash (MULTISIG_CONTRACT_HASHES cfg))
  | Throw e => result run = Throw e
  end.
Proof.
  cbv zeta. unfold has2faEnabled, bind, external.
  destruct (env (AccountState account) (world s)) as [[state | e] w];
    cbn [fst]; [| reflexivity].
  destruct (truthy state) eqn:Hstate; cbn [negb].
  - eexists. split; [reflexivity |]. apply array_includes_iff.
  - exists false. split; [reflexivity |]. split; [discriminate |].
    intros [hash [Hmember _]].
    destruct state; cbn in Hmember, Hstate; discriminate.
Qed.

(** X15. [deployMultisig] deploys what it fetched from [/multisig.wasm] and
    sets [has2fa] only after the deployment went through: a failed fetch
    ends it before anything is deployed, a failed deployment leaves [has2fa]
    as it was, and both failures reach the caller. *)
Theorem deployMultisig_outcomes (s : Store World) :
  let run := deployMultisig env s in
  match fst (env (Fetch "/multisig.wasm") (world s)) with
  | Ok contractBytes =>
      exists deployed,
        log run = [(Fetch "/multisig.wasm", Ok contractBytes);
                   (SuperDeployMultisig contractBytes, deployed)]
        /\ match deployed with
           | Ok _ => result run = Ok tt /\ has2fa (after run) = true
           | Throw e => result run = Throw e /\ has2fa (after run) = has2fa s
           end
  | Throw e =>
      result run = Throw e
      /\ log run = [(Fetch "/multisig.wasm", Throw e)]
      /\ has2fa (after run) = has2fa s
  end.
Proof.
  cbv zeta. play.
  - eexists. split; [reflexivity | split; reflexivity].
  - eexists. split; [reflexivity | split; reflexivity].
  - repeat split; reflexivity.
Qed.

(** X16. When one of the two binaries cannot be fetched, [disableMultisig]
    fails with that error before anything is disabled: [disable] is not
    called, the account is not refreshed and [has2fa] is as before. *)
Theorem disableMultisig_fetch_failure (path : string) (e : Error)
    (s : Store World) :
  let run := disableMultisig env s in
  In (Fetch path, Throw e) (log run) ->
  result run = Throw e
  /\ has2fa (after run) = has2fa s
  /\ (forall main cleanup answer, ~ In (Disable main cleanup, answer) (log run))
  /\ (forall answer, ~ In (DispatchRefreshAccount, answer) (log run)).
Proof.
  intros run Hfetch. subst run. play. all: settle.
  all: repeat split; try reflexivity; intros; intro Hin; settle.
Qed.

(** X17. Wherever "too large to be viewed" stands in the message of the
    failed [disable], [disableMultisig] throws the fifteen-minute error in
    its place, does not refresh the account and leaves [has2fa] as it
    was. *)
Theorem disableMultisig_view_limit_anywhere (main cleanup : Value) (e : Error)
    (before behind : string) (s : Store World) :
  let run := disableMultisig env s in
  In (Disable main cleanup, Throw e) (log run) ->
  message e = (before ++ "too large to be viewed" ++ behind)%string ->
  result run =
    Throw (mkError PlainError
             "You must wait 15 minutes between each attempt to disable 2fa. Please try again in 15 minutes. ")
  /\ has2fa (after run) = has2fa s
  /\ (forall answer, ~ In (DispatchRefreshAccount, answer) (log run)).
Proof.
  intros run Hdisable Hmessage. subst run.
  pose proof (includes_anywhere before "too large to be viewed" behind) as Hphrase.
  rewrite <- Hmessage in Hphrase.
  play. all: settle.
  all: try congruence.
  all: repeat split; try reflexivity; intros; intro Hin; settle.
Qed.

(** X18. After a [disable] that went through, the account is refreshed and
    only then is [has2fa] cleared: if the refresh fails, its error reaches
    the caller and [has2fa] still says that two-factor is on. *)
Theorem disableMultisig_after_success (main cleanup disabled : Value)
    (s : Store World) :
  let run := disableMultisig env s in
  In (Disable main cleanup, Ok disabled) (log run) ->
  exists refreshed,
    log run =
      [(Fetch "/main.wasm", Ok main);
       (Fetch "/state_cleanup.wasm", Ok cleanup);
       (Disable main cleanup, Ok disabled);
       (DispatchRefreshAccount, refreshed)]
    /\ match refreshed with
       | Ok _ => result run = Ok disabled /\ has2fa (after run) = false
       | Throw e => result run = Throw e /\ has2fa (after run) = has2fa s
       end.
Proof.
  intros run Hdisable. subst run. play. all: settle.
  all: eexists; split; [reflexivity | split; reflexivity].
Qed.

(** X19. A failure of the Ledger query is the failure of [initTwoFactor]
    and nothing else has happened: the stored request is not reset and the
    helper is not called. *)
Theorem initTwoFactor_ledger_query_failure (accountId method : Value)
    (e : Error) (s : Store World) :
  fst (env WalletIsLedgerEnabled (world s)) = Throw e ->
  let run := initTwoFactor env accountId method s in
  result run = Throw e
  /\ log run = [(WalletIsLedgerEnabled, Throw e)]
  /\ request (after run) = request s.
Proof.
  intros Hfail run. subst run. unfold initTwoFactor, bind, external.
  destruct (env WalletIsLedgerEnabled (world s)) as [answer w].
  cbn [fst] in Hfail. subst answer. repeat split; reflexivity.
Qed.

(** X20. The stored request is reset before the helper is called, so a
    failed call to [/2fa/init] fails [initTwoFactor] with the request
    already overwritten by [{ requestId: -1 }]. *)
Theorem initTwoFactor_post_failure (accountId method : Value) (path : string)
    (body : Value) (e : Error) (s : Store World) :
  let run := initTwoFactor env accountId method s in
  In (WalletPostSignedJson path body, Throw e) (log run) ->
  result run = Throw e
  /\ request (after run) = Obj [("requestId", Num (-1))].
Proof.
  intros run Hpost. subst run. play. all: settle.
  all: split; reflexivity.
Qed.

(** The one query of [getMultisigRequest] and what it makes of the answer. *)
Lemma getMultisigRequest_shape (s : Store World) :
  request s <> Undefined -> request s <> Null ->
  let run := getMultisigRequest env this s in
  exists answer,
    log run = [(ViewFunction this this "get_request"
                  (Obj [("request_id", member (request s) "requestId")]),
                answer)]
    /\ match answer with
       | Ok payload =>
           exists merged,
             result run = Ok merged
             /\ member merged "request_id" = member (request s) "requestId"
             /\ member merged "account_id" = member (request s) "accountId"
             /\ (forall k, k <> "request_id" -> k <> "account_id" ->
                   member merged k = assoc k (own_properties payload))
       | Throw e => result run = Throw e
       end.
Proof.
  intros Hundefined Hnull run. subst run.
  unfold getMultisigRequest, getRequest, requestQuery, bind, external, ret, throw.
  cbn [request world has2fa].
  destruct (request s) eqn:Hstored; try congruence.
  all: destruct (env _ (world s)) as [[payload | e] w]; eexists;
    (split; [reflexivity |]); cbn [result fst]; try reflexivity.
  all: eexists; split; [reflexivity |]; cbn [member].
  all: split; [| split].
  all: try (rewrite assoc_define_other by discriminate; apply assoc_define_same).
  all: try apply assoc_define_same.
  all: intros k Hk1 Hk2; now rewrite !assoc_define_other by assumption.
Qed.

(** X21. [getMultisigRequest] asks the contract of the account itself for
    the stored [requestId], whatever that is, and answers the contract's
    payload with [request_id] and [account_id] set from the stored request:
    a [request_id] or [account_id] of the payload is overridden, every other
    property of the payload is kept, and a failed query is the failure of
    [getMultisigRequest]. *)
Theorem getMultisigRequest_merges (s : Store World) :
  request s <> Undefined -> request s <> Null ->
  let run := getMultisigRequest env this s in
  exists answer,
    log run = [(ViewFunction this this "get_request"
                  (Obj [("request_id", member (request s) "requestId")]),
                answer)]
    /\ match answer with
       | Ok payload =>
           exists merged,
             result run = Ok merged
             /\ member merged "request_id" = member (request s) "requestId"
             /\ member merged "account_id" = member (request s) "accountId"
             /\ (forall k, k <> "request_id" -> k <> "account_id" ->
                   member merged k = assoc k (own_properties payload))
       | Throw e => result run = Throw e
       end.
Proof.
  intros Hundefined Hnull. exact (getMultisigRequest_shape s Hundefined Hnull).
Qed.

(** X22. After [initTwoFactor] succeeded, [getMultisigRequest] asks the
    contract for request [-1] and answers with [request_id] [-1] and an
    [account_id] that is [undefined]: the reset stored no account id. *)
Theorem getMultisigRequest_after_init (accountId method started : Value)
    (s : Store World) :
  result (initTwoFactor env accountId method s) = Ok started ->
  let run := getMultisigRequest env this
               (after (initTwoFactor env accountId method s)) in
  exists answer,
    log run = [(ViewFunction this this "get_request"
                  (Obj [("request_id", Num (-1))]), answer)]
    /\ match answer with
       | Ok payload =>
           exists merged,
             result run = Ok merged
             /\ member merged "request_id" = Num (-1)
             /\ member merged "account_id" = Undefined
       | Throw e => result run = Throw e
       end.
Proof.
  intros Hstarted run. subst run.
  assert (request (after (initTwoFactor env accountId method s)) = noRequest)
    as Hreset.
  { revert Hstarted. play; intro Hstarted; try discriminate; reflexivity. }
  destruct (getMultisigRequest_shape
              (after (initTwoFactor env accountId method s)))
    as [answer [Hlog Hresult]].
  - rewrite Hreset. discriminate.
  - rewrite Hreset. discriminate.
  - rewrite Hreset in *. exists answer. split; [exact Hlog |].
    destruct answer as [payload | e]; [| exact Hresult].
    destruct Hresult as [merged [Hm [Hid [Hacc _]]]].
    exists merged. repeat split; assumption.
Qed.

End MoreTwoFactor.

(** * Further runs on the small world *)

Lemma transfer_native_sends_money_witness :
  let run := FungibleTokens.transfer Scenario.config Scenario.chain "alice.near"
               None 5 "bob.near" Undefined Scenario.newcomer in
  log run = [(WalletGetAccount "alice.near", Ok (Obj []));
             (SendMoney "alice.near" "bob.near" 5, result run)].
Proof.
  exact (transfer_native_sends_money Scenario.config Scenario.chain
           "alice.near" "bob.near" None 5 Undefined Scenario.newcomer eq_refl).
Defined.

Lemma account_failure_stops_everything_witness :
  let e := Scenario.failure "Wallet is locked" in
  let sent := FungibleTokens.transfer Scenario.config Outage.lockedWallet
                "alice.near" (Some "token.near") 5 "bob.near" Undefined
                Scenario.newcomer in
  let wrapped := FungibleTokens.wrapNear Scenario.config Scenario.parseNearAmount
                   Outage.lockedWallet "alice.near" 5 true Scenario.newcomer in
  result sent = Throw e
  /\ log sent = [(WalletGetAccount "alice.near", Throw e)]
  /\ result wrapped = Throw e
  /\ log wrapped = [(WalletGetAccount "alice.near", Throw e)].
Proof.
  exact (account_failure_stops_everything Scenario.config
           Scenario.parseNearAmount Outage.lockedWallet "alice.near" "bob.near"
           (Some "token.near") 5 Undefined true
           (Scenario.failure "Wallet is locked") Scenario.newcomer eq_refl).
Defined.

Lemma transfer_without_storage_deposit_witness :
  let run := FungibleTokens.transfer Scenario.config Scenario.chain "alice.near"
               (Some "token.near") 5 "bob.near" Undefined
               (Scenario.fresh Scenario.paidOnly false) in
  exists unregistered,
    submissions (log run) =
      [(FungibleTokens.transferTransaction Scenario.config "token.near"
          unregistered 5 Undefined "bob.near", result run)].
Proof.
  apply (transfer_without_storage_deposit Scenario.config Scenario.chain
           "alice.near" "token.near" "bob.near" 5 Undefined
           (Ok (Obj [("total", Str "1250000000000000000000")]))
           (Scenario.fresh Scenario.paidOnly false)).
  - discriminate.
  - simpl. auto.
  - discriminate.
Defined.

Lemma transfer_token_submissions_witness :
  let run := FungibleTokens.transfer Scenario.config Scenario.chain "alice.near"
               (Some "token.near") 5 "bob.near" Undefined
               (Scenario.fresh Scenario.costly false) in
  Forall (fun submitted => receiverId (fst submitted) = "token.near")
    (submissions (log run))
  /\ (List.length (submissions (log run)) <= 3)%nat
  /\ (forall account to sum answer,
        ~ In (SendMoney account to sum, answer) (log run)).
Proof.
  apply (transfer_token_submissions Scenario.config Scenario.chain
           "alice.near" "token.near" "bob.near" 5 Undefined
           (Scenario.fresh Scenario.costly false)).
  discriminate.
Defined.



Lemma getEstimatedTotalFees_without_context_witness :
  let run := FungibleTokens.getEstimatedTotalFees Scenario.config Scenario.chain
               None (Some "token.near") Scenario.newcomer in
  log run = [(GetTotalGasFee 30000000000000, result run)].
Proof.
  exact (getEstimatedTotalFees_without_context Scenario.config Scenario.chain
           None (Some "token.near") Scenario.newcomer eq_refl).
Defined.


Lemma getEstimatedTotalFees_queries_down_witness :
  let e := Scenario.failure "Failed to fetch" in
  let run := FungibleTokens.getEstimatedTotalFees Scenario.config Outage.offline
               (Some "bob.near") (Some "token.near") Scenario.newcomer in
  log run =
    [(FungibleTokens.registrationQuery "token.near" "bob.near", Throw e);
     (FungibleTokens.storageQuery "token.near" "bob.near", Throw e);
     (GetTotalGasFee 30000000000000, result run)].
Proof.
  apply (getEstimatedTotalFees_queries_down Scenario.config Outage.offline
           "bob.near" "token.near" (Scenario.failure "Failed to fetch")
           (Scenario.failure "Failed to fetch") Scenario.newcomer).
  - discriminate.
  - discriminate.
  - simpl. auto.
  - simpl. auto.
Defined.

Lemma wrapNear_query_failure_witness :
  let e := Scenario.failure "Failed to fetch" in
  let run := FungibleTokens.wrapNear Scenario.config Scenario.parseNearAmount
               Outage.offline "alice.near" 5 true Scenario.newcomer in
  result run = Throw e /\ submissions (log run) = [].
Proof.
  apply (wrapNear_query_failure Scenario.config Scenario.parseNearAmount
           Outage.offline "alice.near" 5 true
           (Scenario.failure "Failed to fetch") Scenario.newcomer).
  simpl. auto.
Defined.

Lemma storage_checks_disagree_witness :
  let wrapped := FungibleTokens.wrapNear Scenario.config Scenario.parseNearAmount
                   Outage.bare "alice.near" 5 true Scenario.newcomer in
  result (FungibleTokens.isStorageDepositRequired Outage.bare "alice.near"
            "wrap.near" Scenario.newcomer) = Ok true
  /\ submissions (log wrapped) =
     [(mkTransaction "wrap.near"
         [FungibleTokens.near_wrap_action Scenario.config 5 true],
       result wrapped)].
Proof.
  apply (storage_checks_disagree Scenario.config Scenario.parseNearAmount
           Outage.bare [("available", Str "0")] "wrap.near" "alice.near" 5 true
           Scenario.newcomer Scenario.newcomer).
  - reflexivity.
  - reflexivity.
  - simpl. auto.
Defined.

Lemma getUniqueTokenIdentity_prefers_contract_witness :
  let token := Obj [("contractName", Str "token.near");
                    ("onChainFTMetadata", Obj [("symbol", Str "TKN")])] in
  let bare := Obj [("contractName", Str "token.near")] in
  FungibleTokens.getUniqueTokenIdentity token = Ok (Str "token.near")
  /\ FungibleTokens.getUniqueTokenIdentity bare
     = FungibleTokens.getUniqueTokenIdentity token.
Proof.
  exact (getUniqueTokenIdentity_prefers_contract
           [("contractName", Str "token.near");
            ("onChainFTMetadata", Obj [("symbol", Str "TKN")])]
           [("contractName", Str "token.near")] "token.near" eq_refl eq_refl).
Defined.

Lemma disableMultisig_fetch_failure_witness :
  let e := Scenario.failure "Failed to fetch" in
  let s := Scenario.fresh (Scenario.multisig None) true in
  let run := TwoFactor.disableMultisig Outage.noCleanupBinary s in
  result run = Throw e
  /\ has2fa (after run) = has2fa s
  /\ (forall main cleanup answer, ~ In (Disable main cleanup, answer) (log run))
  /\ (forall answer, ~ In (DispatchRefreshAccount, answer) (log run)).
Proof.
  apply (disableMultisig_fetch_failure Outage.noCleanupBinary
           "/state_cleanup.wasm" (Scenario.failure "Failed to fetch")
           (Scenario.fresh (Scenario.multisig None) true)).
  simpl. auto.
Defined.

Lemma disableMultisig_view_limit_anywhere_witness :
  let s := Scenario.fresh
             (Scenario.multisig
                (Some "State of contract alice.near is too large to be viewed"))
             true in
  let run := TwoFactor.disableMultisig Scenario.chain s in
  result run =
    Throw (mkError PlainError
             "You must wait 15 minutes between each attempt to disable 2fa. Please try again in 15 minutes. ")
  /\ has2fa (after run) = has2fa s
  /\ (forall answer, ~ In (DispatchRefreshAccount, answer) (log run)).
Proof.
  apply (disableMultisig_view_limit_anywhere Scenario.chain (Arr []) (Arr [])
           Outage.viewLimit "State of contract alice.near is " ""
           (Scenario.fresh
              (Scenario.multisig
                 (Some "State of contract alice.near is too large to be viewed"))
              true)).
  - simpl. auto.
  - reflexivity.
Defined.

Lemma disableMultisig_after_success_witness :
  let s := Scenario.fresh (Scenario.multisig None) true in
  let run := TwoFactor.disableMultisig Scenario.chain s in
  exists refreshed,
    log run =
      [(Fetch "/main.wasm", Ok (Arr []));
       (Fetch "/state_cleanup.wasm", Ok (Arr []));
       (Disable (Arr []) (Arr []), Ok (Obj []));
       (DispatchRefreshAccount, refreshed)]
    /\ match refreshed with
       | Ok _ => result run = Ok (Obj []) /\ has2fa (after run) = false
       | Throw e => result run = Throw e /\ has2fa (after run) = has2fa s
       end.
Proof.
  apply (disableMultisig_after_success Scenario.chain (Arr []) (Arr []) (Obj [])
           (Scenario.fresh (Scenario.multisig None) true)).
  simpl. auto.
Defined.

Lemma initTwoFactor_ledger_query_failure_witness :
  let e := Scenario.failure "Ledger keys unavailable" in
  let run := TwoFactor.initTwoFactor Outage.noLedgerAnswer (Str "alice.near")
               (Str "2fa-email") MultisigScenario.awaiting in
  result run = Throw e
  /\ log run = [(WalletIsLedgerEnabled, Throw e)]
  /\ request (after run) = request MultisigScenario.awaiting.
Proof.
  exact (initTwoFactor_ledger_query_failure Outage.noLedgerAnswer
           (Str "alice.near") (Str "2fa-email")
           (Scenario.failure "Ledger keys unavailable")
           MultisigScenario.awaiting eq_refl).
Defined.

Lemma initTwoFactor_post_failure_witness :
  let run := TwoFactor.initTwoFactor Outage.noHelper (Str "alice.near")
               (Str "2fa-email") MultisigScenario.awaiting in
  result run = Throw (Scenario.failure "Failed to fetch")
  /\ request (after run) = Obj [("requestId", Num (-1))].
Proof.
  apply (initTwoFactor_post_failure Outage.noHelper (Str "alice.near")
           (Str "2fa-email") "/2fa/init"
           (Obj [("accountId", Str "alice.near"); ("method", Str "2fa-email")])
           (Scenario.failure "Failed to fetch") MultisigScenario.awaiting).
  simpl. auto.
Defined.

Lemma getMultisigRequest_merges_witness :
  let run := TwoFactor.getMultisigRequest MultisigScenario.chain "alice.near"
               MultisigScenario.awaiting in
  exists answer,
    log run = [(ViewFunction "alice.near" "alice.near" "get_request"
                  (Obj [("request_id", Num 7)]), answer)]
    /\ match answer with
       | Ok payload =>
           exists merged,
             result run = Ok merged
             /\ member merged "request_id" = Num 7
             /\ member merged "account_id" = Str "alice.near"
             /\ (forall k, k <> "request_id" -> k <> "account_id" ->
                   member merged k = assoc k (own_properties payload))
       | Throw e => result run = Throw e
       end.
Proof.
  apply (getMultisigRequest_merges MultisigScenario.chain "alice.near"
           MultisigScenario.awaiting).
  - discriminate.
  - discriminate.
Defined.

Lemma getMultisigRequest_after_init_witness :
  let run := TwoFactor.getMultisigRequest MultisigScenario.chain "alice.near"
               (after (TwoFactor.initTwoFactor MultisigScenario.chain
                         (Str "alice.near") (Str "2fa-email")
                         MultisigScenario.awaiting)) in
  exists answer,
    log run = [(ViewFunction "alice.near" "alice.near" "get_request"
                  (Obj [("request_id", Num (-1))]), answer)]
    /\ match answer with
       | Ok payload =>
           exists merged,
             result run = Ok merged
             /\ member merged "request_id" = Num (-1)
             /\ member merged "account_id" = Undefined
       | Throw e => result run = Throw e
       end.
Proof.
  apply (getMultisigRequest_after_init MultisigScenario.chain "alice.near"
           (Str "alice.near") (Str "2fa-email") (Obj [("success", Bool true)])
           MultisigScenario.awaiting).
  reflexivity.
Defined.

(** The contract's own [request_id] gives way to the stored one, and the
    receiver it names is kept. *)
Example getMultisigRequest_awaiting :
  result (TwoFactor.getMultisigRequest MultisigScenario.chain "alice.near"
            MultisigScenario.awaiting) =
  Ok (Obj [("receiver_id", Str "bob.near"); ("request_id", Num 7);
           ("actions", Arr []); ("account_id", Str "alice.near")]).
Proof. reflexivity. Qed.

(** Spreading a payload that is no object adds nothing of its own. *)
Example own_properties_of_text :
  own_properties (Str "ok") = [("0", Str "o"); ("1", Str "k")]
  /\ own_properties Null = [].
Proof. split; reflexivity. Qed.
